(** * The homepage feature list of the tutorial site

    A shallow embedding of [src/components/HomepageFeatures/index.tsx]
    and, after it, of the server code that the tutorial pages give.  Of
    the component:
    the [FeatureItem] type, the static [FeatureList] table, the
    [Feature] component and the [HomepageFeatures] component, together
    with the properties the specification states about them.

    React elements are modelled as the trees that JSX evaluates to.  The
    module scope (the [FeatureList] binding) and the outside world are
    threaded explicitly, so that "nothing is mutated" and "rendering again
    gives the same markup" are statements about the code and not about
    Rocq functions in general. *)

From Stdlib Require Import Ascii String ZArith.
From stdpp Require Import base option strings list gmap pretty.

Open Scope string_scope.
Set Warnings "-register-all".

(** ** React elements *)

(** [Svg: require('@site/static/img/compass.svg').default]: the item holds
    a reference to a component generated from an asset, never the bytes. *)
Inductive SvgComponent : Type :=
  | SvgAsset (path : string).

(** What stands in the tag position of a JSX element in this file: a host
    tag (['div'], ['section'], ['p']), a fragment [<>...</>], the theme's
    [Heading] component, or an [Svg] component taken from an item. *)
Inductive ElementType : Type :=
  | Host (tag : string)
  | Fragment
  | Heading
  | SvgElement (component : SvgComponent).

(** [type FeatureItem = { title: string; Svg: ...; description: ReactNode }],
    with the type of nodes left open so that the node type can mention it. *)
Record FeatureItemOf (node : Type) : Type := mkFeatureItem {
  title : string;
  Svg : SvgComponent;
  description : node;
}.
Arguments mkFeatureItem {node} _ _ _.
Arguments title {node} _.
Arguments Svg {node} _.
Arguments description {node} _.

(** A node is text, an element with string-valued attributes and child
    nodes, or a [<Feature key=... {...props} />] element, whose props are a
    [FeatureItem].  [key] is the number written in [key={idx}]. *)
Inductive ReactNode : Type :=
  | RText (s : string)
  | RElement (type : ElementType) (key : option nat)
             (props : list (string * string)) (children : list ReactNode)
  | RFeature (key : option nat) (props : FeatureItemOf ReactNode).

Definition FeatureItem : Type := FeatureItemOf ReactNode.

(** [<tag a="..."> children </tag>] without a key. *)
Definition jsx (type : ElementType) (props : list (string * string))
    (children : list ReactNode) : ReactNode :=
  RElement type None props children.

(** [{...props}]: a new props object with the own fields of [props], for
    a [props] that is what [FeatureItem] declares.  An element that has a
    [key] of its own besides is the matter of [Feature_element] below. *)
Definition spread (props : FeatureItem) : FeatureItem :=
  {| title := title props; Svg := Svg props; description := description props |}.

(** *** Reading an element tree *)

Definition children (n : ReactNode) : list ReactNode :=
  match n with
  | RElement _ _ _ kids => kids
  | _ => []
  end.

Definition element_type (n : ReactNode) : option ElementType :=
  match n with
  | RElement t _ _ _ => Some t
  | _ => None
  end.

Definition key_of (n : ReactNode) : option nat :=
  match n with
  | RElement _ k _ _ => k
  | RFeature k _ => k
  | RText _ => None
  end.

Definition feature_props (n : ReactNode) : option FeatureItem :=
  match n with
  | RFeature _ p => Some p
  | _ => None
  end.

Fixpoint assoc (name : string) (props : list (string * string)) : option string :=
  match props with
  | [] => None
  | (k, v) :: rest => if decide (k = name) then Some v else assoc name rest
  end.

Fixpoint assoc_nat (name : string) (table : list (string * nat)) : option nat :=
  match table with
  | [] => None
  | (k, v) :: rest => if decide (k = name) then Some v else assoc_nat name rest
  end.

Definition attr (name : string) (n : ReactNode) : option string :=
  match n with
  | RElement _ _ props _ => assoc name props
  | _ => None
  end.

(** Whether a tree is markup proper, without [<Feature />] elements left
    to be replaced. *)
Fixpoint feature_free (n : ReactNode) : bool :=
  match n with
  | RText _ => true
  | RElement _ _ _ kids => forallb feature_free kids
  | RFeature _ _ => false
  end.

(** The node reached from [n] by taking the child at each index of [path]
    in turn. *)
Fixpoint descend (path : list nat) (n : ReactNode) : option ReactNode :=
  match path with
  | [] => Some n
  | i :: rest =>
      match children n !! i with
      | Some c => descend rest c
      | None => None
      end
  end.

(** ** [clsx] *)

(** [clsx(...args)] for string arguments: the truthy (non-empty) ones,
    joined by single spaces, accumulated from left to right. *)
Definition clsx (args : list string) : string :=
  fold_left
    (fun str x =>
       if decide (x = "") then str
       else if decide (str = "") then x else str +:+ " " +:+ x)
    args "".

(** ** The stylesheet module *)

(** [import styles from './styles.module.css']: the two class names the
    component reads.  The stylesheet is not among the sources; the names
    it gives are taken as they come. *)
Record CssModule : Type := {
  features : string;
  featureSvg : string;
}.

Definition sample_styles : CssModule :=
  {| features := "features_t9lD"; featureSvg := "featureSvg_GfXr" |}.

(** ** The grid classes of the theme *)

(** The class names of a [className] attribute, split at spaces. *)
Fixpoint class_names_from (current : string) (s : string) : list string :=
  match s with
  | EmptyString => [current]
  | String c rest =>
      if decide (c = " "%char)
      then current :: class_names_from "" rest
      else class_names_from (current +:+ String c "") rest
  end.

Definition class_names (className : string) : list string :=
  filter (fun name => name ≠ "") (class_names_from "" className).

(** Modelled from the spec: the stylesheet of the site theme, which gives
    [col] and [col--4] their meaning, is missing from the sources.  The
    specification reads the block's classes as "each item claims one-third
    of the row width, i.e., a fixed 3-column grid": the theme divides a row
    into [grid_columns] columns and [col--N] makes a [col] span [N] of
    them. *)
Definition grid_columns : nat := 12.

Definition col_span (name : string) : option nat :=
  assoc_nat name [
    ("col--1", 1); ("col--2", 2); ("col--3", 3); ("col--4", 4);
    ("col--5", 5); ("col--6", 6); ("col--7", 7); ("col--8", 8);
    ("col--9", 9); ("col--10", 10); ("col--11", 11); ("col--12", 12)
  ].

(** The number of grid columns an element with these classes spans, when
    it is a column of the grid with an explicit span. *)
Definition column_span (className : string) : option nat :=
  let names := class_names className in
  if decide ("col" ∈ names)
  then list_find (fun o => is_Some o) (col_span <$> names) ≫= snd
  else None.

(** Blocks of this span next to each other fill a row three at a time. *)
Definition one_third_of_row (span : nat) : bool :=
  bool_decide (3 * span = grid_columns).

(** ** Evaluation: module scope, outside world, exceptions *)

(** What a component could touch besides its result. *)
Inductive IoEvent : Type :=
  | NetworkRequest (url : string)
  | StorageWrite (key value : string).

(** The state a call of the component runs in: the value bound to
    [FeatureList] in the module scope ([None] is JavaScript's [undefined];
    the declared type [FeatureItem[]] promises [Some]), and the record of
    I/O performed so far. *)
Record World : Type := mkWorld {
  scope_FeatureList : option (list FeatureItem);
  io_trace : list IoEvent;
}.

Inductive JsError : Type :=
  | TypeError (message : string).

Inductive Completion (A : Type) : Type :=
  | Normal (value : A)
  | Throw (error : JsError).
Arguments Normal {A} _.
Arguments Throw {A} _.

Definition Eval (A : Type) : Type := World -> Completion A * World.

Definition ret {A} (a : A) : Eval A := fun w => (Normal a, w).

Definition throw {A} (e : JsError) : Eval A := fun w => (Throw e, w).

Definition bind {A B} (m : Eval A) (k : A -> Eval B) : Eval B :=
  fun w =>
    match m w with
    | (Normal a, w') => k a w'
    | (Throw e, w') => (Throw e, w')
    end.

Notation "x <- m ;; k" := (bind m (fun x => k))
  (at level 100, m at next level, right associativity).

(** Reading the identifier [FeatureList]. *)
Definition read_FeatureList : Eval (option (list FeatureItem)) :=
  fun w => (Normal (scope_FeatureList w), w).

(** The two ways in which code of this kind can leave a mark: performing
    I/O, and assigning into the array behind [FeatureList].  The component
    uses neither; they are here so that leaving no mark is a property a
    program can fail to have. *)
Definition perform (e : IoEvent) : Eval unit :=
  fun w => (Normal tt,
            {| scope_FeatureList := scope_FeatureList w;
               io_trace := io_trace w ++ [e] |}).

Definition assign_FeatureList (items : list FeatureItem) : Eval unit :=
  fun w => (Normal tt,
            {| scope_FeatureList := Some items; io_trace := io_trace w |}).

(** The loop of [Array.prototype.map]: the callback receives the element
    and its index, starting from [idx], and may itself have effects. *)
Fixpoint map_from {A B} (callback : A -> nat -> Eval B) (idx : nat)
    (l : list A) : Eval (list B) :=
  match l with
  | [] => ret []
  | x :: rest =>
      y <- callback x idx ;;
      ys <- map_from callback (S idx) rest ;;
      ret (y :: ys)
  end.

(** [receiver.map(callback)]: a method call on [undefined] throws. *)
Definition Array_map {A B} (receiver : option (list A))
    (callback : A -> nat -> Eval B) : Eval (list B) :=
  match receiver with
  | Some l => map_from callback 0 l
  | None =>
      throw (TypeError "Cannot read properties of undefined (reading 'map')")
  end.

(** ** The static data *)

Definition FeatureList : list FeatureItem := [
  {| title := "Solve the Chaos";
     Svg := SvgAsset "@site/static/img/compass.svg";
     description :=
       jsx Fragment [] [RText
         "Express.js is powerful but unopinionated. We provide the missing framework: a clear, consistent structure (Controllers, Services, Repositories) for scalable projects."] |};
  {| title := "Production Focus";
     Svg := SvgAsset "@site/static/img/cloud.svg";
     description :=
       jsx Fragment [] [RText
         "Move beyond simple CRUD. Learn essential real-world concepts like Dockerization, CI/CD pipelines, robust error handling, and security hardening from day one."] |};
  {| title := "End-to-End Backend";
     Svg := SvgAsset "@site/static/img/link.svg";
     description :=
       jsx Fragment [] [RText
         "Gain expert-level implementation knowledge for architecting, securing, testing, and deploying robust API services"] |}
].

(** The world in which the module has just been loaded. *)
Definition loaded : World :=
  {| scope_FeatureList := Some FeatureList; io_trace := [] |}.

(** * The server code of the tutorial

    The application the tutorial pages build, as far as its code is
    given: the error class and the error middleware, the wrapper for
    [async] handlers, the post service with its controller, and the
    pagination helpers.  The database models (Sequelize) and Express
    itself are not part of that code; the models are taken as given,
    and of Express only the order in which [app.js] registers its
    handlers is used. *)

Module Server.


(** ** JavaScript values *)

(** A number, as far as this code computes with numbers: an integer that
    a double holds exactly ([Int 0] is the positive zero), or one of the
    three values that are not finite. *)
Inductive JsNumber : Type :=
  | Int (z : Z)
  | NaN
  | PosInf
  | NegInf.

(** An error object: the fields of [Error] and those [ApiError] adds.  A
    field that an object does not have reads as [undefined], here [None]
    (for [isOperational], which is only tested for truth, [false]). *)
Record ErrorObject : Type := mkError {
  name : string;
  message : string;
  stack : string;
  statusCode : option nat;
  status : option string;
  isOperational : bool;
}.

Inductive JsValue : Type :=
  | VUndefined
  | VNull
  | VBool (b : bool)
  | VNumber (n : JsNumber)
  | VString (s : string)
  | VArray (items : list JsValue)
  | VObject (fields : gmap string JsValue)
  | VError (e : ErrorObject).

(** [ToBoolean]. *)
Definition truthy (v : JsValue) : bool :=
  match v with
  | VUndefined | VNull => false
  | VBool b => b
  | VNumber (Int z) => negb (z =? 0)%Z
  | VNumber NaN => false
  | VNumber _ => true
  | VString s => negb (String.eqb s "")
  | VArray _ | VObject _ | VError _ => true
  end.

(** [v.key] for a key that no built-in prototype defines: the own field of
    an object, [undefined] on other values, and a [TypeError] ([None]) on
    [undefined] and [null]. *)
Definition get (key : string) (v : JsValue) : option JsValue :=
  match v with
  | VUndefined | VNull => None
  | VObject fields => Some (default VUndefined (fields !! key))
  | _ => Some VUndefined
  end.

(** *** Numbers *)

Definition MAX_SAFE_INTEGER : Z := 2 ^ 53 - 1.

Definition safe (z : Z) : bool :=
  bool_decide (- MAX_SAFE_INTEGER <= z <= MAX_SAFE_INTEGER)%Z.

(** An integer result, when a double holds it exactly; [None] where the
    model ends. *)
Definition int (z : Z) : option JsNumber :=
  if safe z then Some (Int z) else None.

Definition digit_value (c : ascii) : option Z :=
  let n := nat_of_ascii c in
  if bool_decide (48 <= n <= 57)%nat then Some (Z.of_nat (n - 48)) else None.

Fixpoint digits_value (acc : Z) (s : string) : option Z :=
  match s with
  | EmptyString => Some acc
  | String c rest =>
      match digit_value c with
      | Some d => digits_value (10 * acc + d) rest
      | None => None
      end
  end.

(** [StringToNumber] on the empty string and on strings of decimal
    digits; every other string is outside the model. *)
Definition StringToNumber (s : string) : option JsNumber :=
  digits_value 0 s ≫= int.

(** [ToNumber]; converting an object is outside the model. *)
Definition ToNumber (v : JsValue) : option JsNumber :=
  match v with
  | VUndefined => Some NaN
  | VNull => Some (Int 0)
  | VBool b => Some (Int (if b then 1 else 0))
  | VNumber n => Some n
  | VString s => StringToNumber s
  | VArray _ | VObject _ | VError _ => None
  end.

(** [n - 1]. *)
Definition minus_one (n : JsNumber) : option JsNumber :=
  match n with
  | Int z => int (z - 1)
  | other => Some other
  end.

(** [a * b].  A product that is the negative zero is outside the model. *)
Definition times (a b : JsNumber) : option JsNumber :=
  match a, b with
  | NaN, _ | _, NaN => Some NaN
  | Int x, Int y =>
      if bool_decide (x * y = 0)%Z && bool_decide (x < 0 \/ y < 0)%Z then None
      else int (x * y)
  | Int x, inf | inf, Int x =>
      if bool_decide (x = 0)%Z then Some NaN
      else Some (match inf with
                 | NegInf => if bool_decide (0 < x)%Z then NegInf else PosInf
                 | _ => if bool_decide (0 < x)%Z then PosInf else NegInf
                 end)
  | PosInf, PosInf | NegInf, NegInf => Some PosInf
  | PosInf, NegInf | NegInf, PosInf => Some NegInf
  end.

(** [Math.ceil(a / b)], the two steps taken together since the quotient
    need not be an integer.  For safe integers with a divisor other than
    zero the rounding of the quotient never reaches the next integer, so
    the result is the ceiling of the exact quotient; a result that is the
    negative zero is outside the model. *)
Definition ceil_div (a b : JsNumber) : option JsNumber :=
  match a, b with
  | NaN, _ | _, NaN => Some NaN
  | Int x, Int y =>
      if negb (safe x && safe y) then None
      else if bool_decide (y = 0)%Z then
        Some (if bool_decide (0 < x)%Z then PosInf
              else if bool_decide (x < 0)%Z then NegInf else NaN)
      else
        let c := (- ((- x) `div` y))%Z in
        if bool_decide (c = 0)%Z && bool_decide (x < 0 \/ y < 0)%Z then None
        else Some (Int c)
  | Int x, PosInf => if bool_decide (0 <= x)%Z then Some (Int 0) else None
  | Int x, NegInf => if bool_decide (x < 0)%Z then Some (Int 0) else None
  | PosInf, Int y => Some (if bool_decide (0 <= y)%Z then PosInf else NegInf)
  | NegInf, Int y => Some (if bool_decide (0 <= y)%Z then NegInf else PosInf)
  | _, _ => Some NaN
  end.

(** ** Pagination: [src/utils/pagination.js] *)

Record Pagination : Type := { limit : JsNumber; offset : JsNumber }.

(** The result of [findAndCountAll]. *)
Record CountAndRows : Type := { count : JsNumber; rows : list JsValue }.

Record PagingData : Type := {
  totalItems : JsNumber;
  items : list JsValue;
  totalPages : JsNumber;
  currentPage : JsNumber;
}.

(** [const getPagination = (page, size) => ...]; [None] where the model
    of numbers ends. *)
Definition getPagination (page size : JsValue) : option Pagination :=
  limit ← (if truthy size then ToNumber size else Some (Int 10));
  offset ← (if truthy page
            then p ← ToNumber page; d ← minus_one p; times d limit
            else Some (Int 0));
  Some {| limit := limit; offset := offset |}.

(** [const getPagingData = (data, page, limit) => ...]. *)
Definition getPagingData (data : CountAndRows) (page : JsValue)
    (limit : JsNumber) : option PagingData :=
  let totalItems := count data in
  let items := rows data in
  currentPage ← (if truthy page then ToNumber page else Some (Int 1));
  totalPages ← ceil_div totalItems limit;
  Some {| totalItems := totalItems; items := items;
          totalPages := totalPages; currentPage := currentPage |}.


(** ** Errors: [src/utils/ApiError.js] *)

(** [new ApiError(statusCode, message)].  [stack] is the trace that
    [Error.captureStackTrace] records at the call. *)
Definition ApiError (stack : string) (statusCode : nat) (message : string) : ErrorObject :=
  {| name := "Error";
     message := message;
     stack := stack;
     statusCode := Some statusCode;
     status := Some (if String.prefix "4" (pretty statusCode) then "fail" else "error");
     isOperational := true |}.


(** ** What the server does: responses, log, database *)

(** [res.status(code).json(body)]. *)
Record Response : Type := { code : nat; body : JsValue }.

(** The state a request is served in: the database behind the models, the
    responses sent so far, and the calls of [console.error] so far, each
    with its arguments. *)
Record Server (Db : Type) : Type := mkServer {
  db : Db;
  sent : list Response;
  console : list (list JsValue);
}.
Arguments mkServer {Db} _ _ _.
Arguments db {Db} _.
Arguments sent {Db} _.
Arguments console {Db} _.

(** How a promise settles. *)
Inductive Settled (A : Type) : Type :=
  | Resolved (value : A)
  | Rejected (reason : ErrorObject).
Arguments Resolved {A} _.
Arguments Rejected {A} _.

(** An [async] function, run to the point where its promise settles. *)
Definition Async (Db A : Type) : Type := Server Db -> Settled A * Server Db.

(** What Express does when [next] is called, with an error or without. *)
Definition Next (Db : Type) : Type := option ErrorObject -> Server Db -> Server Db.

Record Request : Type := {
  req_body : JsValue;
  req_originalUrl : string;
}.

Section Serving.

Context {Db : Type}.

Definition resolve {A} (a : A) : Async Db A := fun w => (Resolved a, w).

Definition reject {A} (e : ErrorObject) : Async Db A := fun w => (Rejected e, w).

Definition await {A B} (m : Async Db A) (k : A -> Async Db B) : Async Db B :=
  fun w =>
    match m w with
    | (Resolved a, w') => k a w'
    | (Rejected e, w') => (Rejected e, w')
    end.

(** [res.status(code).json(body)]. *)
Definition send (code : nat) (body : JsValue) (w : Server Db) : Server Db :=
  {| db := db w; sent := sent w ++ [{| code := code; body := body |}];
     console := console w |}.

(** [console.error(...args)]. *)
Definition console_error (args : list JsValue) (w : Server Db) : Server Db :=
  {| db := db w; sent := sent w; console := console w ++ [args] |}.

(** A call into the database layer: it sees and changes the database and
    nothing else. *)
Definition query {A} (q : Db -> Settled A * Db) : Async Db A :=
  fun w =>
    let '(r, d) := q (db w) in
    (r, {| db := d; sent := sent w; console := console w |}).

(** The trace of an error made where the program is now; its content is of
    no consequence here, one name stands for every place. *)
Variable captured : string.

(** [config.app.env]. *)
Variable env : string.

(** [v.key] inside an [async] function. *)
Definition read (key : string) (v : JsValue) : Async Db JsValue :=
  match get key v with
  | Some x => resolve x
  | None =>
      reject {| name := "TypeError";
                message := "Cannot read properties of "
                           +:+ (match v with VNull => "null" | _ => "undefined" end)
                           +:+ " (reading '" +:+ key +:+ "')";
                stack := captured; statusCode := None; status := None;
                isOperational := false |}
  end.

(** *** [src/middlewares/error.middleware.js] *)

(** [err.statusCode || 500]. *)
Definition statusCode_or_500 (err : ErrorObject) : nat :=
  match statusCode err with
  | Some c => if bool_decide (c = 0) then 500 else c
  | None => 500
  end.

(** [err.status || "error"]. *)
Definition status_or_error (err : ErrorObject) : string :=
  match status err with
  | Some s => if bool_decide (s = "") then "error" else s
  | None => "error"
  end.

(** [const globalErrorHandler = (err, req, res, next) => ...]: the error
    object as the two assignments leave it, and the world after the
    handler. *)
Definition globalErrorHandler (err : ErrorObject) (w : Server Db) : ErrorObject * Server Db :=
  let statusCode' := statusCode_or_500 err in
  let status' := status_or_error err in
  let err :=
    {| name := name err; message := message err; stack := stack err;
       statusCode := Some statusCode';
       status := Some status';
       isOperational := isOperational err |} in
  if bool_decide (env = "development") then
    (err, send statusCode'
            (VObject (<["status" := VString status']>
                     (<["error" := VError err]>
                     (<["message" := VString (message err)]>
                     (<["stack" := VString (stack err)]> ∅))))) w)
  else if isOperational err then
    (err, send statusCode'
            (VObject (<["status" := VString status']>
                     (<["message" := VString (message err)]> ∅))) w)
  else
    (err, send 500
            (VObject (<["status" := VString "error"]>
                     (<["message" := VString "Something went very wrong!"]> ∅)))
            (console_error [VString "ERROR 💥"; VError err] w)).

(** *** [src/utils/catchAsync.js] *)

(** [(fn) => (req, res, next) => { fn(req, res, next).catch(next); }]. *)
Definition catchAsync (fn : Request -> Next Db -> Async Db unit)
    (req : Request) (next : Next Db) (w : Server Db) : Server Db :=
  match fn req next w with
  | (Resolved _, w') => w'
  | (Rejected e, w') => next (Some e) w'
  end.

(** *** The post feature: repository, service, controller *)

Notation "x <-- m ;; k" := (await m (fun x => k))
  (at level 100, m at next level, right associativity).

(** [Post.create] and [Post.findAll] of the model: the database layer,
    which is not part of this code. *)
Variable Post_create : JsValue -> Db -> Settled JsValue * Db.
Variable Post_findAll : Db -> Settled JsValue * Db.

(** [src/repositories/post.repository.js]. *)
Definition postRepository_createPost (data : JsValue) : Async Db JsValue :=
  newPost <-- query (Post_create data) ;;
  resolve newPost.

Definition postRepository_findAllPosts : Async Db JsValue :=
  posts <-- query Post_findAll ;;
  resolve posts.

(** [src/services/post.service.js]. *)
Definition postService_createPost (postData : JsValue) : Async Db JsValue :=
  title <-- read "title" postData ;;
  if negb (truthy title) then reject (ApiError captured 400 "Title is required")
  else
    title <-- read "title" postData ;;
    content <-- read "content" postData ;;
    let dataToSave :=
      VObject (<["title" := title]>
              (<["content" := content]>
              (<["status" := VString "published"]> ∅))) in
    savedPost <-- postRepository_createPost dataToSave ;;
    resolve savedPost.

Definition postService_getAllPosts : Async Db JsValue :=
  posts <-- postRepository_findAllPosts ;;
  resolve posts.

(** [res.status(code).json(body)] as the last step of a handler. *)
Definition respond (code : nat) (body : JsValue) : Async Db unit :=
  fun w => (Resolved tt, send code body w).

(** [src/controllers/post.controller.js]. *)
Definition postController_createPost : Request -> Next Db -> Server Db -> Server Db :=
  catchAsync (fun req next =>
    let postData := req_body req in
    result <-- postService_createPost postData ;;
    respond 201 (VObject (<["status" := VString "success"]>
                         (<["data" := result]> ∅)))).

Definition postController_getPosts : Request -> Next Db -> Server Db -> Server Db :=
  catchAsync (fun req next =>
    result <-- postService_getAllPosts ;;
    respond 200 (VObject (<["status" := VString "success"]>
                         (<["data" := result]> ∅)))).

(** *** [src/app.js] *)

(** [app.all("*", (req, res, next) => next(new ApiError(404, ...)))]. *)
Definition notFound (req : Request) (next : Next Db) (w : Server Db) : Server Db :=
  next (Some (ApiError captured 404
                ("Can't find " +:+ req_originalUrl req +:+ " on this server!"))) w.

(** What [next] does for a handler of the router, as [app.js] sets the
    application up: after the router comes the handler for unknown routes,
    and the error middleware is last. *)
Definition next_in_app (req : Request) : Next Db :=
  fun error w =>
    match error with
    | Some err => snd (globalErrorHandler err w)
    | None => notFound req (fun error w =>
                match error with
                | Some err => snd (globalErrorHandler err w)
                | None => w
                end) w
    end.

End Serving.

(** *** A table of posts for examples *)

(** [Post.create] on a table that keeps the records in the order of
    their creation. *)
Definition table_create (data : JsValue) (table : list JsValue)
    : Settled JsValue * list JsValue :=
  (Resolved data, (table ++ [data])%list).

(** The error of a database that cannot be reached. *)
Definition connection_refused : ErrorObject :=
  {| name := "SequelizeConnectionRefusedError";
     message := "connect ECONNREFUSED 127.0.0.1:5432";
     stack := "SequelizeConnectionRefusedError: connect ECONNREFUSED 127.0.0.1:5432";
     statusCode := None; status := None; isOperational := false |}.

(** [Post.create] while the database cannot be reached. *)
Definition table_unreachable (data : JsValue) (table : list JsValue)
    : Settled JsValue * list JsValue :=
  (Rejected connection_refused, table).

(** A request to the posts route with the given body. *)
Definition posts_request (body : JsValue) : Request :=
  {| req_body := body; req_originalUrl := "/api/v1/posts" |}.

(** A server that has neither answered nor logged anything yet. *)
Definition idle (table : list JsValue) : Server (list JsValue) :=
  mkServer table [] [].

(** What the service hands to the repository. *)
Definition dataToSave (title content : JsValue) : JsValue :=
  VObject (<["title" := title]>
          (<["content" := content]>
          (<["status" := VString "published"]> ∅))).

(** The answer to an error that is not to be shown. *)
Definition generic_body : JsValue :=
  VObject (<["status" := VString "error"]>
          (<["message" := VString "Something went very wrong!"]> ∅)).

End Server.

(** ** Induction over element trees *)

Section ReactNode_induction.

Variable P : ReactNode -> Prop.
Hypothesis P_text : forall s, P (RText s).
Hypothesis P_element :
  forall t k ps kids, Forall P kids -> P (RElement t k ps kids).
Hypothesis P_feature :
  forall k props, P (description props) -> P (RFeature k props).

Fixpoint ReactNode_tree_ind (n : ReactNode) : P n :=
  match n with
  | RText s => P_text s
  | RElement t k ps kids =>
      P_element t k ps kids
        ((fix all (l : list ReactNode) : Forall P l :=
            match l with
            | [] => @List.Forall_nil _ P
            | x :: rest => @List.Forall_cons _ P x rest (ReactNode_tree_ind x) (all rest)
            end) kids)
  | RFeature k props => P_feature k props (ReactNode_tree_ind (description props))
  end.

End ReactNode_induction.

(** ** The components *)

Section Components.

Variable styles : CssModule.

(** [function Feature({ title, Svg, description }: FeatureItem)]. *)
Definition Feature (props : FeatureItem) : ReactNode :=
  let '(mkFeatureItem title Svg description) := props in
  jsx (Host "div") [("className", clsx ["col col--4"])] [
    jsx (Host "div") [("className", "text--center")] [
      jsx (SvgElement Svg) [("className", featureSvg styles); ("role", "img")] []
    ];
    jsx (Host "div") [("className", "text--center padding-horiz--md")] [
      jsx Heading [("as", "h3")] [RText title];
      jsx (Host "p") [] [description]
    ]
  ].

(** [export default function HomepageFeatures(): ReactNode]. *)
Definition HomepageFeatures : Eval ReactNode :=
  array <- read_FeatureList ;;
  items <- Array_map array
             (fun props idx => ret (RFeature (Some idx) (spread props))) ;;
  ret (jsx (Host "section") [("className", features styles)] [
         jsx (Host "div") [("className", "container")] [
           jsx (Host "div") [("className", "row")] items
         ]
       ]).

(** The renderer of the specification, [renderFeatures(items)]: the
    component run with [items] bound to [FeatureList]. *)
Definition renderFeatures (items : option (list FeatureItem)) : Completion ReactNode :=
  fst (HomepageFeatures {| scope_FeatureList := items; io_trace := [] |}).

(** What React makes of an element tree: every [<Feature />] element is
    replaced by what the [Feature] function returns for its props, all the
    way down.  The key belongs to the replaced element and is not part of
    the markup. *)
Fixpoint render (n : ReactNode) : ReactNode :=
  match n with
  | RText s => RText s
  | RElement t k ps kids => RElement t k ps (map render kids)
  | RFeature _ p =>
      Feature {| title := title p; Svg := Svg p;
                 description := render (description p) |}
  end.

(** The children of the row: section, then container, then row. *)
Definition blocks (out : ReactNode) : list ReactNode :=
  match descend [0; 0] out with
  | Some row => children row
  | None => []
  end.

(** The surrounding container with [kids] as the children of its row. *)
Definition container_with (kids : list ReactNode) : ReactNode :=
  jsx (Host "section") [("className", features styles)] [
    jsx (Host "div") [("className", "container")] [
      jsx (Host "div") [("className", "row")] kids
    ]
  ].

(** The parts of a block, by position. *)
Definition icon_of (block : ReactNode) : option ReactNode :=
  descend [0; 0] block.

Definition heading_of (block : ReactNode) : option ReactNode :=
  descend [1; 0] block.

Definition paragraph_of (block : ReactNode) : option ReactNode :=
  descend [1; 1] block.

(** The text of an element whose only child is a string. *)
Definition text_of (n : ReactNode) : option string :=
  match children n with
  | [RText s] => Some s
  | _ => None
  end.

Definition heading_text (block : ReactNode) : option string :=
  heading_of block ≫= text_of.

Definition block_span (block : ReactNode) : option nat :=
  attr "className" block ≫= column_span.

(** The world after one more call of the component. *)
Definition render_pass (w : World) : World :=
  snd (HomepageFeatures w).

(** The item a block shows, read back from its icon, heading and
    paragraph. *)
Definition item_of_block (block : ReactNode) : option FeatureItem :=
  match icon_of block ≫= element_type, heading_text block,
        children <$> paragraph_of block with
  | Some (SvgElement svg), Some text, Some [content] =>
      Some {| title := text; Svg := svg; description := content |}
  | _, _, _ => None
  end.

(** *** Elements with a key of their own *)

(** An element of the array as the running program can hold it.  The
    type [FeatureItem] is checked when the site is built and is gone when
    it runs: next to the three declared fields an element may then have a
    [key] property of its own (a number here, as the index is; React
    compares keys as strings, and equal numbers give equal strings). *)
Record KeyedItem : Type := {
  item_fields : FeatureItem;
  item_key : option nat;
}.

(** An element that is what [FeatureItem] declares and nothing more. *)
Definition declared (item : FeatureItem) : KeyedItem :=
  {| item_fields := item; item_key := None |}.

(** [<Feature key={idx} {...props} />] for such an element.  The
    attributes are taken from left to right, so a [key] among the spread
    props replaces [key={idx}]; React keeps the key apart from the props
    the component receives. *)
Definition Feature_element (props : KeyedItem) (idx : nat) : ReactNode :=
  RFeature (Some (default idx (item_key props))) (spread (item_fields props)).

(** The body of [HomepageFeatures] over an array of such elements. *)
Definition HomepageFeatures_keyed (array : option (list KeyedItem)) : Eval ReactNode :=
  items <- Array_map array (fun props idx => ret (Feature_element props idx)) ;;
  ret (jsx (Host "section") [("className", features styles)] [
         jsx (Host "div") [("className", "container")] [
           jsx (Host "div") [("className", "row")] items
         ]
       ]).

(** ** What [render] produces *)

(** The result has no [<Feature />] element left in it. *)
Lemma render_feature_free (n : ReactNode) : feature_free (render n) = true.
Proof.
  induction n as [s|t k ps kids IH|k props IH] using ReactNode_tree_ind; simpl.
  - done.
  - apply forallb_forall. intros y Hy. apply in_map_iff in Hy as [x [<- Hx]].
    rewrite Forall_forall in IH. apply IH. by apply list_elem_of_In.
  - by rewrite IH.
Qed.

(** Markup proper is left as it is. *)
Lemma render_fixed (n : ReactNode) : feature_free n = true -> render n = n.
Proof.
  induction n as [s|t k ps kids IH|k props IH] using ReactNode_tree_ind;
    simpl; intros Hfree; [done| |done].
  f_equal. rewrite forallb_forall in Hfree.
  induction IH as [|x rest Hx _ IHrest]; simpl; [done|].
  rewrite Hx, IHrest; [done| |]; intros; apply Hfree; simpl; auto.
Qed.

Lemma render_idempotent (n : ReactNode) : render (render n) = render n.
Proof. apply render_fixed, render_feature_free. Qed.

(** For an item whose description is markup proper, the block in the
    markup is what [Feature] returns, description included. *)
Lemma render_Feature_markup (props : FeatureItem) :
  feature_free (description props) = true ->
  render (Feature props) = Feature props.
Proof.
  intros Hfree. apply render_fixed. destruct props as [t svg d]; simpl in *.
  by rewrite Hfree.
Qed.

(** ** Evaluation lemmas *)

Lemma spread_same (props : FeatureItem) : spread props = props.
Proof. by destruct props. Qed.

(** A loop whose callback leaves the world alone leaves the world alone,
    whether or not it completes normally. *)
Lemma map_from_frame {A B} (callback : A -> nat -> Eval B) (l : list A) :
  (forall x i w, snd (callback x i w) = w) ->
  forall idx w, snd (map_from callback idx l w) = w.
Proof.
  intros Hcb. induction l as [|x rest IH]; intros idx w; simpl; [done|].
  unfold bind at 1.
  pose proof (Hcb x idx w) as Hx.
  destruct (callback x idx w) as [[y|e] w1]; simpl in Hx; subst w1; [|done].
  unfold bind at 1.
  pose proof (IH (S idx) w) as Hrest.
  by destruct (map_from callback (S idx) rest w) as [[ys|e] w2];
    simpl in Hrest; subst w2.
Qed.

(** The same loop with a callback that performs I/O does change the
    world: the frame property is a property of the callback. *)
Example map_from_effectful_callback :
  map_from (fun (x : string) idx => _ <- perform (NetworkRequest x) ;; ret idx)
    0 ["a"; "b"] (mkWorld None [])
  = (Normal [0; 1], mkWorld None [NetworkRequest "a"; NetworkRequest "b"]).
Proof. reflexivity. Qed.

Example assign_changes_binding :
  snd (assign_FeatureList [] loaded) = mkWorld (Some []) [].
Proof. reflexivity. Qed.

(** With a callback that only builds a value, the loop is [imap]. *)
Lemma map_from_ret {A B} (f : A -> nat -> B) (l : list A) :
  forall idx w,
    map_from (fun x i => ret (f x i)) idx l w
    = (Normal (imap (fun i x => f x (idx + i)) l), w).
Proof.
  induction l as [|x rest IH]; intros idx w; simpl; [done|].
  unfold bind, ret at 1. rewrite IH. unfold ret.
  rewrite Nat.add_0_r. do 3 f_equal.
  apply imap_ext; intros i y _; simpl. f_equal. lia.
Qed.

Lemma HomepageFeatures_present (items : list FeatureItem) (trace : list IoEvent) :
  HomepageFeatures (mkWorld (Some items) trace)
  = (Normal (container_with (imap (fun idx props => RFeature (Some idx) props) items)),
     mkWorld (Some items) trace).
Proof.
  unfold HomepageFeatures, bind at 1, read_FeatureList; simpl.
  unfold bind at 1.
  rewrite (map_from_ret (fun props idx => RFeature (Some idx) (spread props))).
  rewrite (imap_ext _ (fun idx props => RFeature (Some idx) props)); [done|].
  intros i p _; simpl. by rewrite spread_same.
Qed.

Lemma HomepageFeatures_absent (trace : list IoEvent) :
  HomepageFeatures (mkWorld None trace)
  = (Throw (TypeError "Cannot read properties of undefined (reading 'map')"),
     mkWorld None trace).
Proof. reflexivity. Qed.

Lemma renderFeatures_present (items : list FeatureItem) :
  renderFeatures (Some items)
  = Normal (container_with (imap (fun idx props => RFeature (Some idx) props) items)).
Proof. unfold renderFeatures. by rewrite HomepageFeatures_present. Qed.

Lemma HomepageFeatures_keyed_present (keyed : list KeyedItem) (w : World) :
  HomepageFeatures_keyed (Some keyed) w
  = (Normal (container_with (imap (fun idx props => Feature_element props idx) keyed)), w).
Proof.
  unfold HomepageFeatures_keyed, bind at 1; simpl.
  by rewrite (map_from_ret Feature_element).
Qed.

(** On elements that are what the type declares, the body over keyed
    elements is the component. *)
Lemma HomepageFeatures_keyed_declared (items : list FeatureItem) (trace : list IoEvent) :
  HomepageFeatures_keyed (Some (declared <$> items)) (mkWorld (Some items) trace)
  = HomepageFeatures (mkWorld (Some items) trace).
Proof.
  rewrite HomepageFeatures_keyed_present, HomepageFeatures_present.
  rewrite imap_fmap. do 3 f_equal.
  apply imap_ext; intros i p _; simpl. unfold Feature_element; simpl.
  by rewrite spread_same.
Qed.

Lemma keys_of_elements (keyed : list KeyedItem) :
  key_of <$> imap (fun idx props => Feature_element props idx) keyed
  = imap (fun idx props => Some (default idx (item_key props))) keyed.
Proof. rewrite fmap_imap. by apply imap_ext. Qed.

Lemma HomepageFeatures_frame (w : World) : snd (HomepageFeatures w) = w.
Proof.
  destruct w as [[items|] trace]; [|done].
  unfold HomepageFeatures, bind at 1, read_FeatureList; simpl.
  unfold bind at 1.
  pose proof (map_from_frame
    (fun props idx => ret (RFeature (Some idx) (spread props))) items
    (fun _ _ _ => eq_refl) 0 (mkWorld (Some items) trace)) as Hloop.
  by destruct (map_from _ 0 items _) as [[kids|e] w1]; simpl in Hloop; subst w1.
Qed.

Lemma blocks_container (kids : list ReactNode) : blocks (container_with kids) = kids.
Proof. reflexivity. Qed.

Lemma render_container (kids : list ReactNode) :
  render (container_with kids) = container_with (render <$> kids).
Proof. reflexivity. Qed.

(** Replacing a [<Feature />] element is calling [Feature] on its props
    and going on with the result. *)
Lemma render_invoke (key : option nat) (props : FeatureItem) :
  render (RFeature key props) = render (Feature props).
Proof. by destruct props. Qed.

Lemma render_blocks (items : list FeatureItem) :
  render <$> imap (fun idx props => RFeature (Some idx) props) items
  = (fun props => render (Feature props)) <$> items.
Proof.
  rewrite fmap_imap, <- (imap_const (fun props => render (Feature props))).
  apply imap_ext; intros i p _. apply render_invoke.
Qed.


Lemma block_span_render_Feature (props : FeatureItem) :
  block_span (render (Feature props)) = Some 4.
Proof. by destruct props. Qed.

(** ** The properties of the specification *)


(** C2: in the block [Feature] returns for an item, the heading's only
    child is the item's [title], the same string (hence the same length
    and the same characters), and the paragraph's only child is the
    item's [description], the same node. *)
Theorem Feature_shows_title_and_description (props : FeatureItem) :
  exists heading paragraph,
    heading_of (Feature props) = Some heading
    /\ children heading = [RText (title props)]
    /\ text_of heading = Some (title props)
    /\ paragraph_of (Feature props) = Some paragraph
    /\ element_type paragraph = Some (Host "p")
    /\ children paragraph = [description props].
Proof. destruct props as [t svg d]. by eexists _, _. Qed.

(** C3: in the block [Feature] returns for an item, the icon is an element
    of the item's own [Svg] component (an inline image, not a reference
    by address), without children, and its [role] attribute is ["img"],
    the name under which the image role is written in markup. *)
Theorem Feature_icon_has_image_role (props : FeatureItem) :
  exists icon,
    icon_of (Feature props) = Some icon
    /\ element_type icon = Some (SvgElement (Svg props))
    /\ attr "role" icon = Some "img"
    /\ children icon = [].
Proof. destruct props as [t svg d]. by eexists. Qed.

(** C4: the static [FeatureList] has exactly three entries, with these
    titles in this order, none of them empty; a call of the component in
    the freshly loaded module leaves the binding as it was and shows the
    three entries in their order, each as the block [Feature] returns for
    it. *)
Theorem FeatureList_invariant :
  length FeatureList = 3
  /\ title <$> FeatureList
     = ["Solve the Chaos"; "Production Focus"; "End-to-End Backend"]
  /\ Forall (fun item => 0 < String.length (title item)) FeatureList
  /\ exists out,
       HomepageFeatures loaded = (Normal out, loaded)
       /\ scope_FeatureList (render_pass loaded) = Some FeatureList
       /\ feature_props <$> blocks out = Some <$> FeatureList
       /\ blocks (render out) = Feature <$> FeatureList
       /\ heading_text <$> blocks (render out)
          = [Some "Solve the Chaos"; Some "Production Focus"; Some "End-to-End Backend"].
Proof.
  split; [done|]. split; [done|]. split.
  - repeat constructor.
  - by eexists.
Qed.

(** C5: every block [Feature] returns carries the classes [col col--4],
    whatever the item; in the theme's grid of twelve columns that is a
    span of four, a third of the row.  So for every input all blocks span
    the same width, and the three blocks of the observed data fill one row
    exactly. *)
Theorem blocks_claim_one_third (props : FeatureItem) (items : list FeatureItem) :
  attr "className" (Feature props) = Some "col col--4"
  /\ block_span (Feature props) = Some 4
  /\ one_third_of_row 4 = true
  /\ (exists out,
        renderFeatures (Some items) = Normal out
        /\ block_span <$> blocks (render out) = (fun _ => Some 4) <$> items)
  /\ (exists out,
        renderFeatures (Some FeatureList) = Normal out
        /\ block_span <$> blocks (render out) = [Some 4; Some 4; Some 4]
        /\ 4 + 4 + 4 = grid_columns).
Proof.
  split; [by destruct props|]. split; [by destruct props|]. split; [done|].
  split; [|by eexists].
  eexists. split; [apply renderFeatures_present|].
  rewrite render_container, blocks_container, render_blocks.
  rewrite <- list_fmap_compose. apply list_fmap_ext; intros i p _; simpl.
  apply block_span_render_Feature.
Qed.

(** C6, as amended: for every input sequence that is present, whatever
    its length, the renderer completes normally with the surrounding
    container around one element per item, and leaves the world as it
    was; for the empty sequence the container has no child blocks. *)
Theorem present_input_never_fails (items : list FeatureItem) (trace : list IoEvent) :
  (exists out,
     HomepageFeatures (mkWorld (Some items) trace)
     = (Normal out, mkWorld (Some items) trace)
     /\ out = container_with (blocks out)
     /\ length (blocks out) = length items)
  /\ renderFeatures (Some []) = Normal (container_with [])
  /\ blocks (container_with []) = []
  /\ blocks (render (container_with [])) = [].
Proof.
  split; [|done].
  eexists. split; [apply HomepageFeatures_present|].
  rewrite blocks_container. split; [done|]. apply length_imap.
Qed.

(** C7: the markup is a function of the input sequence alone: whatever
    else the world holds, a call gives what [renderFeatures] gives for the
    sequence bound to [FeatureList], and so does every later call, after
    any number of earlier ones. *)
Theorem rerender_same_markup (items : option (list FeatureItem))
    (trace : list IoEvent) (n : nat) :
  fst (HomepageFeatures (mkWorld items trace)) = renderFeatures items
  /\ fst (HomepageFeatures (render_pass (mkWorld items trace)))
     = fst (HomepageFeatures (mkWorld items trace))
  /\ fst (HomepageFeatures (Nat.iter n render_pass (mkWorld items trace)))
     = fst (HomepageFeatures (mkWorld items trace)).
Proof.
  split; [|split].
  - destruct items as [l|]; [|done].
    by rewrite HomepageFeatures_present, renderFeatures_present.
  - unfold render_pass. by rewrite HomepageFeatures_frame.
  - replace (Nat.iter n render_pass (mkWorld items trace))
      with (mkWorld items trace); [done|].
    induction n as [|n IH]; simpl; [done|].
    rewrite <- IH. unfold render_pass. by rewrite HomepageFeatures_frame.
Qed.

(** C8: a call of the component returns the world it was given: the
    sequence bound to [FeatureList], with every title, icon reference and
    description in it, and the record of I/O are the same after the call
    as before, for every input and every history. *)
Theorem render_leaves_world_unchanged (w : World) :
  snd (HomepageFeatures w) = w
  /\ scope_FeatureList (render_pass w) = scope_FeatureList w
  /\ io_trace (render_pass w) = io_trace w.
Proof.
  unfold render_pass. by rewrite HomepageFeatures_frame.
Qed.

(** C9, as amended: the key of every element the component puts into
    the row is the own key of its item where the item has one, and the
    index of the item otherwise.  For items that are what [FeatureItem]
    declares, which have no key of their own, the keys are therefore
    0, 1, ..., N-1 in this order and no two of them are the same. *)
Theorem block_keys_are_own_key_or_index
    (keyed : list KeyedItem) (items : list FeatureItem) (w : World) :
  (exists out,
     HomepageFeatures_keyed (Some keyed) w = (Normal out, w)
     /\ key_of <$> blocks out
        = imap (fun idx props => Some (default idx (item_key props))) keyed)
  /\ (exists out,
        renderFeatures (Some items) = Normal out
        /\ HomepageFeatures_keyed (Some (declared <$> items)) w = (Normal out, w)
        /\ key_of <$> blocks out = Some <$> seq 0 (length items)
        /\ NoDup (key_of <$> blocks out)).
Proof.
  split.
  - eexists. split; [apply HomepageFeatures_keyed_present|].
    rewrite blocks_container. apply keys_of_elements.
  - eexists. split; [apply renderFeatures_present|].
    assert (key_of <$> imap (fun idx props => RFeature (Some idx) props) items
            = Some <$> seq 0 (length items)) as Hkeys.
    { rewrite fmap_imap. apply (imap_seq_0 items Some). }
    rewrite blocks_container, Hkeys. split; [|split; [done|]].
    + rewrite HomepageFeatures_keyed_present, imap_fmap. do 3 f_equal.
      apply imap_ext; intros i p _; simpl. unfold Feature_element; simpl.
      by rewrite spread_same.
    + apply (NoDup_fmap_2 Some), NoDup_seq.
Qed.

(** C10: in the block [Feature] returns for an item, the title is the
    child of a [Heading] element with [as="h3"], whatever the item; hence
    the same holds of every block of every rendered sequence. *)
Theorem Feature_heading_level_h3 (props : FeatureItem) (items : list FeatureItem) :
  (exists heading,
     heading_of (Feature props) = Some heading
     /\ element_type heading = Some Heading
     /\ attr "as" heading = Some "h3"
     /\ children heading = [RText (title props)])
  /\ (exists out,
        renderFeatures (Some items) = Normal out
        /\ (fun block => heading_of block ≫= attr "as") <$> blocks (render out)
           = (fun _ => Some "h3") <$> items).
Proof.
  split; [destruct props; by eexists|].
  eexists. split; [apply renderFeatures_present|].
  rewrite render_container, blocks_container, render_blocks.
  rewrite <- list_fmap_compose. apply list_fmap_ext; intros i p _; simpl.
  by destruct p.
Qed.

(** ** Further properties of the components *)

(** X1: the block [Feature] returns determines the item: reading the
    icon, the heading and the paragraph back gives the item it was made
    from. *)
Theorem Feature_round_trip (props : FeatureItem) :
  item_of_block (Feature props) = Some props.
Proof. by destruct props. Qed.

(** X2: items appended to the array leave the elements of the earlier
    items, keys included, as they were; the key of a new element is the
    own key of its item where the item has one, and otherwise its index in
    the whole array, the old length plus its place among the new items.
    In the markup the blocks of the longer array are the blocks of the two
    parts one after the other. *)
Theorem blocks_of_appended_items (xs ys : list KeyedItem) (w : World) :
  exists out out_xs out_ys,
    HomepageFeatures_keyed (Some (xs ++ ys)%list) w = (Normal out, w)
    /\ HomepageFeatures_keyed (Some xs) w = (Normal out_xs, w)
    /\ HomepageFeatures_keyed (Some ys) w = (Normal out_ys, w)
    /\ blocks out
       = (blocks out_xs
          ++ imap (fun idx props => Feature_element props (length xs + idx)) ys)%list
    /\ key_of <$> blocks out
       = ((key_of <$> blocks out_xs)
          ++ imap (fun idx props => Some (default (length xs + idx) (item_key props))) ys)%list
    /\ blocks (render out)
       = (blocks (render out_xs) ++ blocks (render out_ys))%list.
Proof.
  eexists _, _, _. rewrite !HomepageFeatures_keyed_present.
  do 3 (split; [reflexivity|]).
  rewrite !render_container, !blocks_container, imap_app.
  split; [done|]. split.
  - rewrite fmap_app. f_equal. rewrite fmap_imap. by apply imap_ext.
  - rewrite !fmap_app. f_equal.
    rewrite !fmap_imap. by apply imap_ext.
Qed.

(** X3: when the descriptions of the items are markup proper, the markup
    of the whole sequence is the container around the blocks [Feature]
    returns for the items, in order, with every description in it as it
    was given. *)
Theorem markup_is_Feature_blocks (xs : list FeatureItem) :
  forallb (fun props => feature_free (description props)) xs = true ->
  exists out,
    renderFeatures (Some xs) = Normal out
    /\ render out = container_with (Feature <$> xs).
Proof.
  intros Hfree. eexists. split; [apply renderFeatures_present|].
  rewrite render_container, render_blocks. f_equal.
  apply list_fmap_ext. intros i props Hi. apply render_Feature_markup.
  rewrite forallb_forall in Hfree. apply Hfree.
  apply list_elem_of_In, list_elem_of_lookup. by exists i.
Qed.

End Components.

(** C6, as stated: with no sequence bound to [FeatureList] the call of
    [map] throws a [TypeError]; the renderer does not complete, and
    there is no container, empty or not. *)
Lemma absent_input_throws :
  renderFeatures sample_styles None
  = Throw (TypeError "Cannot read properties of undefined (reading 'map')")
  /\ ~ (exists out,
         renderFeatures sample_styles None = Normal out
         /\ blocks out = []).
Proof.
  split; [reflexivity|]. intros [out [Hout _]]. discriminate Hout.
Qed.

(** C9, as stated: two items that each have the own key 7 give two
    elements with the key 7, not with the keys 0 and 1, and the keys are
    not distinct. *)
Lemma own_keys_replace_indices :
  exists out,
    HomepageFeatures_keyed sample_styles
      (Some ((fun item => {| item_fields := item; item_key := Some 7 |})
             <$> take 2 FeatureList))
      loaded
    = (Normal out, loaded)
    /\ key_of <$> blocks out = [Some 7; Some 7]
    /\ key_of <$> blocks out <> Some <$> seq 0 2
    /\ ~ NoDup (key_of <$> blocks out).
Proof.
  eexists. split; [reflexivity|]. split; [reflexivity|]. split.
  - discriminate.
  - simpl. intros Hdistinct. apply NoDup_cons in Hdistinct as [Hnotin _].
    apply Hnotin. left.
Qed.

(** * Properties of the server code *)

Import Server.

(** ** Errors and the error middleware *)

Lemma ApiError_status_check :
  forallb (fun n =>
    bool_decide (status (ApiError "" n "")
                 = Some (if bool_decide (400 <= n <= 499) then "fail" else "error")))
    (seq 100 900) = true.
Proof. vm_compute. reflexivity. Qed.

(** X4: for a status code of three digits, an [ApiError] has the status
    ["fail"] when the code is one of 400 to 499 and ["error"] otherwise. *)
Theorem ApiError_status_by_class (stack : string) (statusCode : nat) (message : string) :
  100 <= statusCode <= 999 ->
  status (ApiError stack statusCode message)
  = Some (if bool_decide (400 <= statusCode <= 499) then "fail" else "error").
Proof.
  intros Hrange.
  pose proof ApiError_status_check as Hall.
  rewrite forallb_forall in Hall.
  specialize (Hall statusCode).
  rewrite bool_decide_eq_true in Hall. apply Hall.
  apply in_seq. lia.
Qed.

Section ServerProperties.

Context {Db : Type}.
Variable captured : string.
Variable env : string.
Variable Post_create : JsValue -> Db -> Settled JsValue * Db.
Variable Post_findAll : Db -> Settled JsValue * Db.

Lemma statusCode_or_500_pos (err : ErrorObject) : 0 < statusCode_or_500 err.
Proof.
  unfold statusCode_or_500. destruct (statusCode err) as [c|]; [|lia].
  case_bool_decide; lia.
Qed.

(** The error middleware adds one response to those sent. *)
Lemma handler_sends_one (err : ErrorObject) (w : Server Db) :
  exists r, sent (snd (globalErrorHandler env err w)) = (sent w ++ [r])%list.
Proof.
  unfold globalErrorHandler.
  case_bool_decide; [|destruct (isOperational err)]; by eexists.
Qed.

(** X5: whatever the error and the environment, the error middleware
    answers exactly once and leaves the database alone.  The status code
    of the answer is [err.statusCode || 500], the error's own code when
    that is a number other than zero and 500 otherwise, in development
    and for an operational error; for any other error outside
    development it is 500.  It is never zero. *)
Theorem globalErrorHandler_one_response (err : ErrorObject) (w : Server Db) :
  exists r,
    sent (snd (globalErrorHandler env err w)) = (sent w ++ [r])%list
    /\ db (snd (globalErrorHandler env err w)) = db w
    /\ code r = (if bool_decide (env = "development") || isOperational err
                 then statusCode_or_500 err else 500)
    /\ statusCode_or_500 err
       = match statusCode err with Some (S c) => S c | _ => 500 end
    /\ 0 < code r.
Proof.
  unfold globalErrorHandler.
  pose proof (statusCode_or_500_pos err) as Hpos.
  assert (statusCode_or_500 err
          = match statusCode err with Some (S c) => S c | _ => 500 end) as Hown.
  { unfold statusCode_or_500. by destruct (statusCode err) as [[|c]|]. }
  case_bool_decide; [|destruct (isOperational err)]; simpl;
    eexists; (split; [reflexivity|]); simpl;
    (split; [reflexivity|]); (split; [reflexivity|]);
    (split; [exact Hown|]); lia.
Qed.

(** X6: outside development the answer of the error middleware never
    has a [stack] or an [error] field.  For an operational error it
    carries the error's message and nothing is logged; for any other
    error it is the same answer whatever the error says, status 500
    with a fixed message, and the error is logged. *)
Theorem production_hides_details (err : ErrorObject) (w : Server Db) :
  env <> "development" ->
  exists fields,
    sent (snd (globalErrorHandler env err w))
    = (sent w ++ [{| code := if isOperational err then statusCode_or_500 err else 500;
                     body := VObject fields |}])%list
    /\ fields !! "stack" = None
    /\ fields !! "error" = None
    /\ (if isOperational err
        then fields !! "message" = Some (VString (message err))
             /\ console (snd (globalErrorHandler env err w)) = console w
        else VObject fields = generic_body
             /\ exists logged,
                  console (snd (globalErrorHandler env err w))
                  = (console w ++ [[VString "ERROR 💥"; VError logged]])%list
                  /\ message logged = message err
                  /\ stack logged = stack err).
Proof.
  intros Henv. unfold globalErrorHandler.
  rewrite bool_decide_eq_false_2 by done.
  destruct (isOperational err); simpl; eexists; (split; [reflexivity|]).
  - by repeat split.
  - repeat split; [done..|]. by eexists.
Qed.

(** X7: a request that no route takes is answered with status code
    404, status ["fail"] and a message that names the URL asked for;
    the stack is part of the answer in development and only there. *)
Theorem unknown_route_gets_404 (req : Request) (w : Server Db) :
  exists fields,
    notFound captured req (next_in_app captured env req) w
    = send 404 (VObject fields) w
    /\ fields !! "status" = Some (VString "fail")
    /\ fields !! "message"
       = Some (VString ("Can't find " +:+ req_originalUrl req +:+ " on this server!"))
    /\ fields !! "stack"
       = (if bool_decide (env = "development") then Some (VString captured) else None).
Proof.
  unfold notFound, next_in_app, globalErrorHandler; simpl.
  case_bool_decide; simpl; eexists; (split; [reflexivity|]); by repeat split.
Qed.

(** ** The wrapper for [async] handlers *)

(** X8: outside development, when a handler wrapped by [catchAsync]
    fails with an error that is not operational, whatever the handler
    and whatever the error, the client gets status 500 with the fixed
    message and the error goes to the log; what the handler had done
    before it failed stays done. *)
Theorem unexpected_error_is_hidden_in_production
    (fn : Request -> Next Db -> Async Db unit) (req : Request)
    (e : ErrorObject) (w w1 : Server Db) :
  env <> "development" ->
  fn req (next_in_app captured env req) w = (Rejected e, w1) ->
  isOperational e = false ->
  exists logged,
    catchAsync fn req (next_in_app captured env req) w
    = send 500 generic_body (console_error [VString "ERROR 💥"; VError logged] w1)
    /\ message logged = message e
    /\ stack logged = stack e.
Proof.
  intros Henv Hfn Hop. unfold catchAsync. rewrite Hfn.
  unfold next_in_app, globalErrorHandler.
  rewrite bool_decide_eq_false_2 by done. simpl. rewrite Hop.
  by eexists.
Qed.

(** ** The post service and its controller *)

Lemma read_get (key : string) (v x : JsValue) (w : Server Db) :
  get key v = Some x -> read captured key v w = (Resolved x, w).
Proof. intros Hget. unfold read. by rewrite Hget. Qed.

Lemma createPost_valid (postData title content : JsValue) (w : Server Db) :
  get "title" postData = Some title ->
  truthy title = true ->
  get "content" postData = Some content ->
  postService_createPost captured Post_create postData w
  = query (Post_create (dataToSave title content)) w.
Proof.
  intros Htitle Htruthy Hcontent.
  unfold postService_createPost, await at 1. rewrite (read_get _ _ _ _ Htitle).
  rewrite Htruthy; simpl.
  unfold await at 1. rewrite (read_get _ _ _ _ Htitle).
  unfold await at 1. rewrite (read_get _ _ _ _ Hcontent).
  unfold postRepository_createPost, await, resolve, dataToSave.
  by destruct (query _ w) as [[saved|e] w'].
Qed.

Lemma createPost_invalid (postData title : JsValue) (w : Server Db) :
  get "title" postData = Some title ->
  truthy title = false ->
  postService_createPost captured Post_create postData w
  = (Rejected (ApiError captured 400 "Title is required"), w).
Proof.
  intros Htitle Hfalsy.
  unfold postService_createPost, await at 1. rewrite (read_get _ _ _ _ Htitle).
  by rewrite Hfalsy.
Qed.

(** X9: when the title of the data is missing or falsy (empty, zero,
    [null], [false]), [createPost] of the service fails with an
    [ApiError] of code 400 and status ["fail"] that says so, and the
    repository is not called: the database is as it was. *)
Theorem createPost_rejects_missing_title (postData title : JsValue) (w : Server Db) :
  get "title" postData = Some title ->
  truthy title = false ->
  postService_createPost captured Post_create postData w
  = (Rejected (ApiError captured 400 "Title is required"), w)
  /\ statusCode (ApiError captured 400 "Title is required") = Some 400
  /\ status (ApiError captured 400 "Title is required") = Some "fail".
Proof.
  intros Htitle Hfalsy. split; [exact (createPost_invalid _ _ w Htitle Hfalsy)|done].
Qed.

(** X10: of the data it is given, [createPost] of the service uses the
    title and the content and nothing else: two requests that agree on
    these two have the same outcome and leave the same database, so an
    [id], a [status] or any other field sent by a client has no
    effect. *)
Theorem createPost_saves_only_title_and_content
    (a b title content : JsValue) (w : Server Db) :
  get "title" a = Some title -> get "title" b = Some title ->
  get "content" a = Some content -> get "content" b = Some content ->
  postService_createPost captured Post_create a w
  = postService_createPost captured Post_create b w.
Proof.
  intros Ha Hb Hca Hcb.
  destruct (truthy title) eqn:Htruthy.
  - by rewrite (createPost_valid a title content), (createPost_valid b title content).
  - by rewrite (createPost_invalid a title w Ha Htruthy),
      (createPost_invalid b title w Hb Htruthy).
Qed.

(** An [async] function that neither answers the request nor logs. *)
Definition quiet {A} (m : Async Db A) : Prop :=
  forall w, sent (snd (m w)) = sent w /\ console (snd (m w)) = console w.

Lemma quiet_resolve {A} (a : A) : quiet (resolve a).
Proof. done. Qed.

Lemma quiet_reject {A} (e : ErrorObject) : quiet (@reject Db A e).
Proof. done. Qed.

Lemma quiet_query {A} (q : Db -> Settled A * Db) : quiet (query q).
Proof. intros w. unfold query. by destruct (q (db w)). Qed.

Lemma quiet_read (key : string) (v : JsValue) : quiet (read captured key v).
Proof. unfold read. by destruct (get key v). Qed.

Lemma quiet_await {A B} (m : Async Db A) (k : A -> Async Db B) :
  quiet m -> (forall a, quiet (k a)) -> quiet (await m k).
Proof.
  intros Hm Hk w. unfold await. specialize (Hm w).
  destruct (m w) as [[a|e] w1]; simpl in *; [|done].
  destruct (Hk a w1) as [-> ->]. done.
Qed.

Ltac quiet :=
  repeat first [ apply quiet_resolve | apply quiet_reject | apply quiet_read
               | apply quiet_query | apply quiet_await | intros ? ].

Lemma quiet_createPost (postData : JsValue) :
  quiet (postService_createPost captured Post_create postData).
Proof.
  unfold postService_createPost, postRepository_createPost.
  apply quiet_await; [apply quiet_read|]. intros title.
  destruct (truthy title); simpl; quiet.
Qed.

Lemma quiet_getAllPosts : quiet (postService_getAllPosts Post_findAll).
Proof. unfold postService_getAllPosts, postRepository_findAllPosts. quiet. Qed.

(** A handler that awaits a quiet service and then answers once. *)
Lemma answer_after_quiet {A} (service : Request -> Async Db A) (code : nat)
    (answer : A -> JsValue) (req : Request) (w : Server Db) :
  (forall req, quiet (service req)) ->
  exists r,
    sent (catchAsync
            (fun req _ => await (service req) (fun result => respond code (answer result)))
            req (next_in_app captured env req) w)
    = (sent w ++ [r])%list.
Proof.
  intros Hquiet. unfold catchAsync, await.
  destruct (Hquiet req w) as [Hframe _].
  destruct (service req w) as [[result|e] w1]; simpl in *.
  - eexists. by rewrite Hframe.
  - destruct (handler_sends_one e w1) as [r Hr].
    exists r. by rewrite Hr, Hframe.
Qed.

(** X11: the two handlers of the post controller answer every request
    exactly once, whatever the request holds and however the call into
    the database settles: when the service resolves, with their own
    answer, 201 for a created post and 200 for the list, status
    ["success"] and the result as data; when it rejects, with the answer
    of the error middleware to the error. *)
Theorem post_handlers_answer_once (req : Request) (w : Server Db) :
  (exists r,
     postController_createPost captured Post_create req
       (next_in_app captured env req) w
     = match postService_createPost captured Post_create (req_body req) w with
       | (Resolved result, w1) =>
           send 201 (VObject (<["status" := VString "success"]>
                             (<["data" := result]> ∅))) w1
       | (Rejected e, w1) => snd (globalErrorHandler env e w1)
       end
     /\ sent (postController_createPost captured Post_create req
                (next_in_app captured env req) w)
        = (sent w ++ [r])%list)
  /\ (exists r,
        postController_getPosts Post_findAll req (next_in_app captured env req) w
        = match postService_getAllPosts Post_findAll w with
          | (Resolved result, w1) =>
              send 200 (VObject (<["status" := VString "success"]>
                                (<["data" := result]> ∅))) w1
          | (Rejected e, w1) => snd (globalErrorHandler env e w1)
          end
        /\ sent (postController_getPosts Post_findAll req
                   (next_in_app captured env req) w)
           = (sent w ++ [r])%list).
Proof.
  split.
  - destruct (answer_after_quiet
                (fun req => postService_createPost captured Post_create (req_body req)) 201
                (fun result => VObject (<["status" := VString "success"]>
                                       (<["data" := result]> ∅)))
                req w (fun r => quiet_createPost (req_body r))) as [r Hr].
    exists r. split; [|exact Hr].
    unfold postController_createPost, catchAsync, await.
    by destruct (postService_createPost captured Post_create (req_body req) w)
      as [[result|e] w1].
  - destruct (answer_after_quiet (fun _ => postService_getAllPosts Post_findAll) 200
                (fun result => VObject (<["status" := VString "success"]>
                                       (<["data" := result]> ∅)))
                req w (fun _ => quiet_getAllPosts)) as [r Hr].
    exists r. split; [|exact Hr].
    unfold postController_getPosts, catchAsync, await.
    by destruct (postService_getAllPosts Post_findAll w) as [[result|e] w1].
Qed.

(** X12: a request to create a post whose title is missing or falsy is
    answered with status code 400, status ["fail"] and the message
    ["Title is required"], in every environment, and the database is as
    it was. *)
Theorem createPost_handler_missing_title (req : Request) (title : JsValue) (w : Server Db) :
  get "title" (req_body req) = Some title ->
  truthy title = false ->
  exists fields,
    postController_createPost captured Post_create req (next_in_app captured env req) w
    = send 400 (VObject fields) w
    /\ db (postController_createPost captured Post_create req
             (next_in_app captured env req) w) = db w
    /\ fields !! "status" = Some (VString "fail")
    /\ fields !! "message" = Some (VString "Title is required").
Proof.
  intros Htitle Hfalsy.
  unfold postController_createPost, catchAsync, await.
  rewrite (createPost_invalid _ _ w Htitle Hfalsy).
  unfold next_in_app, globalErrorHandler; simpl.
  case_bool_decide; simpl; eexists; (split; [reflexivity|]); by repeat split.
Qed.

(** X13: a request to create a post with a truthy title, when the
    database saves the record, is answered with status code 201, status
    ["success"] and the saved record as data; what was handed to the
    database is the title, the content and the status ["published"]. *)
Theorem createPost_handler_created (req : Request) (title content saved : JsValue)
    (w : Server Db) (d : Db) :
  get "title" (req_body req) = Some title ->
  truthy title = true ->
  get "content" (req_body req) = Some content ->
  Post_create (dataToSave title content) (db w) = (Resolved saved, d) ->
  postController_createPost captured Post_create req (next_in_app captured env req) w
  = send 201 (VObject (<["status" := VString "success"]> (<["data" := saved]> ∅)))
      (mkServer d (sent w) (console w)).
Proof.
  intros Htitle Htruthy Hcontent Hsaved.
  unfold postController_createPost, catchAsync, await.
  rewrite (createPost_valid _ _ _ _ Htitle Htruthy Hcontent).
  unfold query. by rewrite Hsaved.
Qed.

(** X14: outside development, when the database fails while a post is
    created, with an error that is not operational, the client gets
    status 500 with the fixed message and nothing of what the database
    said. *)
Theorem createPost_handler_database_failure (req : Request)
    (title content : JsValue) (e : ErrorObject) (w : Server Db) (d : Db) :
  env <> "development" ->
  get "title" (req_body req) = Some title ->
  truthy title = true ->
  get "content" (req_body req) = Some content ->
  Post_create (dataToSave title content) (db w) = (Rejected e, d) ->
  isOperational e = false ->
  sent (postController_createPost captured Post_create req
          (next_in_app captured env req) w)
  = (sent w ++ [{| code := 500; body := generic_body |}])%list.
Proof.
  intros Henv Htitle Htruthy Hcontent Hfail Hop.
  unfold postController_createPost, catchAsync, await.
  rewrite (createPost_valid _ _ _ _ Htitle Htruthy Hcontent).
  unfold query. rewrite Hfail.
  unfold next_in_app, globalErrorHandler.
  rewrite bool_decide_eq_false_2 by done. simpl. by rewrite Hop.
Qed.

End ServerProperties.

(** ** Numbers *)

Lemma safe_iff (z : Z) :
  safe z = true <-> (- MAX_SAFE_INTEGER <= z <= MAX_SAFE_INTEGER)%Z.
Proof. unfold safe. apply bool_decide_eq_true. Qed.

Lemma int_safe (z : Z) :
  (- MAX_SAFE_INTEGER <= z <= MAX_SAFE_INTEGER)%Z -> int z = Some (Int z).
Proof. intros Hz. unfold int. by rewrite (proj2 (safe_iff z) Hz). Qed.

(** A value that converts to a positive integer is truthy: the string
    that converts to it is not empty. *)
Lemma positive_is_truthy (v : JsValue) (z : Z) :
  ToNumber v = Some (Int z) -> (0 < z)%Z -> truthy v = true.
Proof.
  intros Hnum Hpos.
  destruct v as [| |[]|[]|s| | |]; simpl in *; simplify_eq; try lia; try done.
  destruct s; [|done]. vm_compute in Hnum. simplify_eq. lia.
Qed.

(** ** Pagination *)

(** X16: for a page number [p] and a page size [s], both at least one
    and given as numbers or as strings of digits, [getPagination] asks
    the database for [s] rows after the first [(p - 1) * s]: page one
    starts at row 0 and every page starts where the page before it
    ends. *)
Theorem getPagination_page (page size : JsValue) (p s : Z) :
  ToNumber page = Some (Int p) ->
  ToNumber size = Some (Int s) ->
  (0 < p)%Z -> (0 < s)%Z -> ((p - 1) * s <= MAX_SAFE_INTEGER)%Z ->
  getPagination page size
  = Some {| limit := Int s; offset := Int ((p - 1) * s) |}.
Proof.
  intros Hpage Hsize Hp Hs Hbound. unfold getPagination.
  rewrite (positive_is_truthy size s Hsize Hs), Hsize; simpl.
  rewrite (positive_is_truthy page p Hpage Hp), Hpage; simpl.
  assert (MAX_SAFE_INTEGER = 9007199254740991)%Z as HM by reflexivity.
  rewrite int_safe by nia. simpl. unfold times.
  rewrite (bool_decide_eq_false_2 (p - 1 < 0 \/ s < 0)%Z) by lia.
  rewrite andb_false_r. rewrite int_safe by nia. done.
Qed.

(** X17: for [N] rows in all and a limit [L] of at least one,
    [getPagingData] reports as [totalPages] the number [T] of pages that
    hold the rows exactly: [T] pages of [L] rows have room for all [N],
    and [T - 1] pages have not. *)
Theorem getPagingData_totalPages (rows : list JsValue) (page : JsValue) (N L : Z) :
  (0 <= N <= MAX_SAFE_INTEGER)%Z ->
  (0 < L <= MAX_SAFE_INTEGER)%Z ->
  is_Some (ToNumber page) ->
  exists T current,
    getPagingData {| count := Int N; rows := rows |} page (Int L)
    = Some {| totalItems := Int N; items := rows;
              totalPages := Int T; currentPage := current |}
    /\ ((T - 1) * L < N <= T * L)%Z.
Proof.
  intros HN HL [n Hn].
  exists (- ((- N) `div` L))%Z.
  assert (exists current,
    (if truthy page then ToNumber page else Some (Int 1)) = Some current) as [current Hcur].
  { destruct (truthy page); eauto. }
  exists current. unfold getPagingData; simpl. rewrite Hcur; simpl.
  assert ((- ((- N) `div` L) - 1) * L < N <= - ((- N) `div` L) * L)%Z as Hceil.
  { pose proof (Z.div_mod (- N) L ltac:(lia)) as Hdm.
    pose proof (Z.mod_pos_bound (- N) L ltac:(lia)) as Hmod.
    set (q := ((- N) `div` L)%Z) in *. set (r := ((- N) `mod` L)%Z) in *.
    clearbody q r. nia. }
  split; [|exact Hceil].
  rewrite (proj2 (safe_iff N)), (proj2 (safe_iff L)) by lia. simpl.
  rewrite bool_decide_eq_false_2 by lia.
  rewrite (bool_decide_eq_false_2 (N < 0 \/ L < 0)%Z) by lia.
  by rewrite andb_false_r.
Qed.

(** X18: a page given as a truthy value that converts to zero, such as
    the string ["0"] of a query, is not taken for the first page.  With
    the limit being 10 when the size is absent or falsy, and the size
    when that converts to a positive integer, the offset is the negative
    of the limit. *)
Theorem getPagination_page_zero (page size : JsValue) (s : Z) :
  truthy page = true ->
  ToNumber page = Some (Int 0) ->
  (truthy size = false /\ s = 10%Z)
  \/ (ToNumber size = Some (Int s) /\ (0 < s <= MAX_SAFE_INTEGER)%Z) ->
  getPagination page size = Some {| limit := Int s; offset := Int (- s) |}.
Proof.
  intros Htruthy Hpage Hsize. unfold getPagination.
  assert ((if truthy size then ToNumber size else Some (Int 10)) = Some (Int s)
          /\ (0 < s <= MAX_SAFE_INTEGER)%Z) as [-> Hs].
  { destruct Hsize as [[-> ->] | [Hnum Hs]]; [by vm_compute|].
    by rewrite (positive_is_truthy size s Hnum) by lia. }
  simpl. rewrite Htruthy, Hpage; simpl.
  assert (MAX_SAFE_INTEGER = 9007199254740991)%Z as HM by reflexivity.
  rewrite (bool_decide_eq_false_2 ((0 - 1) * s = 0)%Z) by lia. simpl.
  rewrite int_safe by lia. simpl. by replace ((0 - 1) * s)%Z with (- s)%Z by lia.
Qed.

(** X19: a size given as a truthy value that converts to zero, such as
    the string ["0"], is taken as the limit.  For a page that is absent
    or falsy, or that converts to a positive integer, the rows asked for
    are then none from row 0 on, and the number of pages reported is not
    a finite number: [Infinity] when there are rows, [NaN] when there are
    none.  The page reported is the page asked for, 1 when it is absent
    or falsy. *)
Theorem zero_size_gives_no_page_count (page size : JsValue) (p N : Z)
    (rows : list JsValue) :
  truthy size = true ->
  ToNumber size = Some (Int 0) ->
  (truthy page = false /\ p = 1%Z)
  \/ (ToNumber page = Some (Int p) /\ (0 < p <= MAX_SAFE_INTEGER)%Z) ->
  (0 <= N <= MAX_SAFE_INTEGER)%Z ->
  getPagination page size = Some {| limit := Int 0; offset := Int 0 |}
  /\ getPagingData {| count := Int N; rows := rows |} page (Int 0)
     = Some {| totalItems := Int N; items := rows;
               totalPages := (if bool_decide (N = 0)%Z then NaN else PosInf);
               currentPage := Int p |}.
Proof.
  intros Htruthy Hsize Hpage HN.
  assert (MAX_SAFE_INTEGER = 9007199254740991)%Z as HM by reflexivity.
  assert (totalPages_of : ceil_div (Int N) (Int 0)
          = Some (if bool_decide (N = 0)%Z then NaN else PosInf)).
  { unfold ceil_div. rewrite (proj2 (safe_iff N)) by lia. simpl.
    repeat case_bool_decide; try lia; done. }
  assert (paging : forall current,
            (if truthy page then ToNumber page else Some (Int 1)) = Some current ->
            getPagingData {| count := Int N; rows := rows |} page (Int 0)
            = Some {| totalItems := Int N; items := rows;
                      totalPages := (if bool_decide (N = 0)%Z then NaN else PosInf);
                      currentPage := current |}).
  { intros current Hcurrent. unfold getPagingData. cbv zeta. cbn [count Server.rows].
    rewrite Hcurrent. cbn [mbind option_bind]. by rewrite totalPages_of. }
  destruct Hpage as [[Hfalsy ->] | [Hnum Hp]].
  - split; [|apply paging; by rewrite Hfalsy].
    unfold getPagination. by rewrite Htruthy, Hsize, Hfalsy.
  - pose proof (positive_is_truthy page p Hnum ltac:(lia)) as Hpt.
    split; [|apply paging; by rewrite Hpt].
    unfold getPagination. rewrite Htruthy, Hsize, Hpt, Hnum; simpl.
    rewrite int_safe by lia. simpl. unfold times.
    rewrite (bool_decide_eq_false_2 (p - 1 < 0 \/ 0 < 0)%Z) by lia.
    rewrite andb_false_r. rewrite int_safe by lia.
    by replace ((p - 1) * 0)%Z with 0%Z by lia.
Qed.

(** X20: with page and size both absent or falsy (not in the query,
    empty, zero as a number), the first ten rows are asked for, and the
    page reported is page 1 of as many pages of ten as hold the rows. *)
Theorem pagination_defaults (page size : JsValue) (N : Z) (rows : list JsValue) :
  truthy page = false ->
  truthy size = false ->
  (0 <= N <= MAX_SAFE_INTEGER)%Z ->
  getPagination page size = Some {| limit := Int 10; offset := Int 0 |}
  /\ getPagingData {| count := Int N; rows := rows |} page (Int 10)
     = Some {| totalItems := Int N; items := rows;
               totalPages := Int (- ((- N) `div` 10)); currentPage := Int 1 |}.
Proof.
  intros Hpage Hsize HN. unfold getPagination, getPagingData.
  rewrite Hpage, Hsize; simpl. split; [done|].
  assert (MAX_SAFE_INTEGER = 9007199254740991)%Z as HM by reflexivity.
  rewrite (proj2 (safe_iff N)) by lia. simpl.
  rewrite (bool_decide_eq_false_2 (N < 0 \/ 10 < 0)%Z) by lia.
  by rewrite andb_false_r.
Qed.

(** * Instances

    Each property above that has a premise, at an input where the premise
    holds. *)

Lemma markup_is_Feature_blocks_witness :
  forallb (fun props => feature_free (description props)) FeatureList = true
  /\ exists out,
       renderFeatures sample_styles (Some FeatureList) = Normal out
       /\ render sample_styles out
          = container_with sample_styles (Feature sample_styles <$> FeatureList).
Proof.
  split; [reflexivity|].
  apply (markup_is_Feature_blocks sample_styles FeatureList). reflexivity.
Defined.

Lemma ApiError_status_by_class_witness :
  100 <= 404 <= 999
  /\ status (ApiError "" 404 "Post not found") = Some "fail".
Proof.
  split; [lia|].
  exact (ApiError_status_by_class "" 404 "Post not found" ltac:(lia)).
Defined.

Lemma production_hides_details_witness :
  "production" <> "development"
  /\ exists fields,
       sent (snd (globalErrorHandler "production" connection_refused (idle [])))
       = [{| code := 500; body := VObject fields |}]
       /\ fields !! "stack" = None
       /\ fields !! "error" = None.
Proof.
  split; [done|].
  destruct (production_hides_details "production" connection_refused (idle []))
    as [fields (Hsent & Hstack & Herror & _)]; [done|].
  exists fields. by repeat split.
Defined.

Lemma unexpected_error_is_hidden_in_production_witness :
  "production" <> "development"
  /\ isOperational connection_refused = false
  /\ sent (catchAsync (fun _ _ => reject connection_refused) (posts_request VNull)
             (next_in_app "" "production" (posts_request VNull)) (idle []))
     = [{| code := 500; body := generic_body |}].
Proof.
  split; [done|]. split; [reflexivity|].
  destruct (unexpected_error_is_hidden_in_production "" "production"
              (fun _ _ => reject connection_refused) (posts_request VNull)
              connection_refused (idle []) (idle []))
    as [logged [-> _]]; done.
Defined.

Lemma createPost_rejects_missing_title_witness :
  get "title" (VObject {["content" := VString "no title"]}) = Some VUndefined
  /\ truthy VUndefined = false
  /\ postService_createPost "" table_create
       (VObject {["content" := VString "no title"]}) (idle [])
     = (Rejected (ApiError "" 400 "Title is required"), idle []).
Proof.
  split; [reflexivity|]. split; [reflexivity|].
  apply (createPost_rejects_missing_title "" table_create
           (VObject {["content" := VString "no title"]}) VUndefined (idle []));
    reflexivity.
Defined.

Lemma createPost_saves_only_title_and_content_witness :
  postService_createPost "" table_create
    (VObject (<["title" := VString "Hello"]> (<["content" := VString "World"]> ∅)))
    (idle [])
  = postService_createPost "" table_create
      (VObject (<["title" := VString "Hello"]> (<["content" := VString "World"]>
               (<["status" := VString "draft"]> (<["id" := VNumber (Int 7)]> ∅)))))
      (idle []).
Proof.
  apply (createPost_saves_only_title_and_content "" table_create _ _
           (VString "Hello") (VString "World")); reflexivity.
Defined.

Lemma createPost_handler_missing_title_witness :
  get "title" (req_body (posts_request (VObject ∅))) = Some VUndefined
  /\ truthy VUndefined = false
  /\ exists fields,
       postController_createPost "" table_create (posts_request (VObject ∅))
         (next_in_app "" "production" (posts_request (VObject ∅))) (idle [])
       = send 400 (VObject fields) (idle [])
       /\ fields !! "message" = Some (VString "Title is required").
Proof.
  split; [reflexivity|]. split; [reflexivity|].
  destruct (createPost_handler_missing_title "" "production" table_create
              (posts_request (VObject ∅)) VUndefined (idle []))
    as [fields (Hsent & _ & _ & Hmessage)]; [reflexivity..|].
  by exists fields.
Defined.

Lemma createPost_handler_created_witness :
  sent (postController_createPost "" table_create
          (posts_request (VObject (<["title" := VString "Hello"]>
                                  (<["content" := VString "World"]> ∅))))
          (next_in_app "" "production"
             (posts_request (VObject (<["title" := VString "Hello"]>
                                     (<["content" := VString "World"]> ∅)))))
          (idle []))
  = [{| code := 201;
        body := VObject (<["status" := VString "success"]>
                        (<["data" := dataToSave (VString "Hello") (VString "World")]> ∅)) |}].
Proof.
  rewrite (createPost_handler_created "" "production" table_create _
             (VString "Hello") (VString "World")
             (dataToSave (VString "Hello") (VString "World")) (idle [])
             [dataToSave (VString "Hello") (VString "World")]);
    reflexivity.
Defined.

Lemma createPost_handler_database_failure_witness :
  "production" <> "development"
  /\ isOperational connection_refused = false
  /\ sent (postController_createPost "" table_unreachable
             (posts_request (VObject {["title" := VString "Hello"]}))
             (next_in_app "" "production"
                (posts_request (VObject {["title" := VString "Hello"]})))
             (idle []))
     = [{| code := 500; body := generic_body |}].
Proof.
  split; [done|]. split; [reflexivity|].
  apply (createPost_handler_database_failure "" "production" table_unreachable
           (posts_request (VObject {["title" := VString "Hello"]}))
           (VString "Hello") VUndefined connection_refused (idle []) []);
    done.
Defined.

Lemma getPagination_page_witness :
  ToNumber (VString "2") = Some (Int 2)
  /\ ToNumber (VString "10") = Some (Int 10)
  /\ getPagination (VString "2") (VString "10")
     = Some {| limit := Int 10; offset := Int 10 |}.
Proof.
  split; [reflexivity|]. split; [reflexivity|].
  apply (getPagination_page (VString "2") (VString "10") 2 10);
    first [reflexivity | lia | by vm_compute].
Defined.

Lemma getPagingData_totalPages_witness :
  is_Some (ToNumber (VString "1"))
  /\ exists T current,
       getPagingData {| count := Int 4; rows := [] |} (VString "1") (Int 2)
       = Some {| totalItems := Int 4; items := [];
                 totalPages := Int T; currentPage := current |}
       /\ ((T - 1) * 2 < 4 <= T * 2)%Z.
Proof.
  split; [by eexists|].
  apply (getPagingData_totalPages [] (VString "1") 4 2);
    first [by eexists | by vm_compute].
Defined.

Lemma getPagination_page_zero_witness :
  truthy (VString "0") = true
  /\ ToNumber (VString "0") = Some (Int 0)
  /\ truthy VUndefined = false
  /\ getPagination (VString "0") VUndefined
     = Some {| limit := Int 10; offset := Int (- 10) |}.
Proof.
  split; [reflexivity|]. split; [reflexivity|]. split; [reflexivity|].
  apply (getPagination_page_zero (VString "0") VUndefined 10);
    first [reflexivity | by left].
Defined.

Lemma zero_size_gives_no_page_count_witness :
  truthy (VString "0") = true
  /\ ToNumber (VString "0") = Some (Int 0)
  /\ truthy VUndefined = false
  /\ getPagination VUndefined (VString "0")
     = Some {| limit := Int 0; offset := Int 0 |}
  /\ getPagingData {| count := Int 5; rows := [] |} VUndefined (Int 0)
     = Some {| totalItems := Int 5; items := [];
               totalPages := PosInf; currentPage := Int 1 |}.
Proof.
  split; [reflexivity|]. split; [reflexivity|]. split; [reflexivity|].
  apply (zero_size_gives_no_page_count VUndefined (VString "0") 1 5 []);
    first [reflexivity | by left | by vm_compute].
Defined.

Lemma pagination_defaults_witness :
  truthy VUndefined = false
  /\ getPagination VUndefined VUndefined
     = Some {| limit := Int 10; offset := Int 0 |}
  /\ getPagingData {| count := Int 25; rows := [] |} VUndefined (Int 10)
     = Some {| totalItems := Int 25; items := [];
               totalPages := Int 3; currentPage := Int 1 |}.
Proof.
  split; [reflexivity|].
  apply (pagination_defaults VUndefined VUndefined 25 []);
    first [reflexivity | by vm_compute].
Defined.
